(** * Databricks Metadata Explorer: the Streamlit script [app.py]

    A shallow embedding of [streamlit-data-app/app.py]: the query executor
    [sql_query], the four accessors memoised by [st.cache_data(ttl=60)], and
    the top-level script that the framework re-runs on every interaction.

    The warehouse, the widget state of the session and the process
    environment are the inputs; the trace of warehouse events and the page
    of rendered elements are the observable outputs. *)

From Stdlib Require Import ZArith String List Lia.
From stdpp Require Import base gmap strings pretty list.

(** ** Python values *)

(** The values that flow through the script: cells of a result set, widget
    return values, accessor arguments. *)
Inductive PyVal :=
  | PyNone
  | PyStr (s : string)
  | PyInt (n : Z)
  | PyBool (b : bool).

#[global] Instance PyVal_eq_dec : EqDecision PyVal.
Proof. solve_decision. Defined.

#[global] Instance PyVal_countable : Countable PyVal.
Proof.
  refine (inj_countable'
    (λ v, match v with
          | PyNone => inl (inl ())
          | PyStr s => inl (inr s)
          | PyInt n => inr (inl n)
          | PyBool b => inr (inr b)
          end)
    (λ c, match c with
          | inl (inl _) => PyNone
          | inl (inr s) => PyStr s
          | inr (inl n) => PyInt n
          | inr (inr b) => PyBool b
          end) _).
  by intros [].
Defined.

(** [str(v)], which is what an f-string placeholder [{v}] inserts. *)
Definition py_str (v : PyVal) : string :=
  match v with
  | PyNone => "None"
  | PyStr s => s
  | PyInt n => pretty n
  | PyBool true => "True"
  | PyBool false => "False"
  end.

(** Truth value of [v] in an [if] or under [and]. *)
Definition py_truthy (v : PyVal) : bool :=
  match v with
  | PyNone => false
  | PyStr s => negb (String.eqb s "")
  | PyInt n => negb (n =? 0)%Z
  | PyBool b => b
  end.

(** A [pd.DataFrame]: named columns and rows of cells. *)
Record DataFrame := {
  df_columns : list string;
  df_rows : list (list PyVal)
}.

#[global] Instance DataFrame_eq_dec : EqDecision DataFrame.
Proof. solve_decision. Defined.

(** ** Exceptions *)

(** What the warehouse client can raise, by the step of [sql_query] that
    raises it. *)
Inductive Failure :=
  | ConfigFailure      (* Config() cannot resolve host or credentials *)
  | ConnectionFailure  (* sql.connect: warehouse unreachable *)
  | AuthFailure        (* sql.connect: credentials rejected *)
  | CursorFailure      (* connection.cursor() *)
  | QueryFailure       (* cursor.execute: the statement is rejected *)
  | FetchFailure.      (* cursor.fetchall_arrow().to_pandas() *)

#[global] Instance Failure_eq_dec : EqDecision Failure.
Proof. solve_decision. Defined.

Inductive Exn :=
  | AssertionError (msg : string)
  | NameError (name : string)
  | KeyError (key : string)
  | IndexError
  | WarehouseError (f : Failure).

#[global] Instance Exn_eq_dec : EqDecision Exn.
Proof. solve_decision. Defined.

Inductive Result (A : Type) :=
  | Ok (a : A)
  | Raise (e : Exn).
Arguments Ok {A} a.
Arguments Raise {A} e.

(** ** The warehouse *)

(** The answer of the warehouse to one statement: a failure at some step of
    the exchange, or a result set. *)
Inductive Outcome :=
  | Fails (f : Failure)
  | Rows (df : DataFrame).

(** The external collaborator: what the warehouse answers to a statement
    submitted at a given time (seconds). *)
Class Warehouse := respond : Z → string → Outcome.

(** Steps of [sql_query], in the order of the source. *)
Inductive Stage := AtConfig | AtConnect | AtCursor | AtExecute | AtFetch.

#[global] Instance Stage_eq_dec : EqDecision Stage.
Proof. solve_decision. Defined.

Definition failure_stage (f : Failure) : Stage :=
  match f with
  | ConfigFailure => AtConfig
  | ConnectionFailure | AuthFailure => AtConnect
  | CursorFailure => AtCursor
  | QueryFailure => AtExecute
  | FetchFailure => AtFetch
  end.

(** ** Observable events and rendered elements *)

Inductive Event :=
  | EvCall (fname : string) (args : list PyVal)  (* an accessor is called *)
  | EvQuery (query : string)                     (* sql_query(query) is called *)
  | EvConfig
  | EvConnect (http_path : string)               (* sql.connect(...).__enter__ *)
  | EvCursor                                     (* connection.cursor().__enter__ *)
  | EvExecute (query : string)                   (* cursor.execute(query) *)
  | EvFetch
  | EvCloseCursor                                (* cursor.__exit__ *)
  | EvCloseConnection                            (* connection.__exit__ *)
  | EvFailed (f : Failure).                      (* the client raises *)

#[global] Instance Event_eq_dec : EqDecision Event.
Proof. solve_decision. Defined.

Inductive Element :=
  | ElSelectbox (label : string) (options : list PyVal) (value : PyVal)
  | ElCheckbox (label : string) (value : bool)
  | ElSubheader (text : string)
  | ElDataframe (data : DataFrame)
  | ElDivider.

(** ** Process state *)

Abbreviation CacheKey := (string * list PyVal)%type.

Record World := {
  environ : gmap string string;              (* os.environ *)
  clock : Z;                                 (* seconds *)
  cache : gmap CacheKey (DataFrame * Z);     (* result, expiry timestamp *)
  trace : list Event;                        (* oldest first *)
  page : list Element                        (* elements of the current pass *)
}.

Definition emits (evs : list Event) (w : World) : World :=
  {| environ := environ w; clock := clock w; cache := cache w;
     trace := trace w ++ evs; page := page w |}.

Definition emit (ev : Event) (w : World) : World := emits [ev] w.

Definition draw (el : Element) (w : World) : World :=
  {| environ := environ w; clock := clock w; cache := cache w;
     trace := trace w; page := page w ++ [el] |}.

Definition set_cache (c : gmap CacheKey (DataFrame * Z)) (w : World) : World :=
  {| environ := environ w; clock := clock w; cache := c;
     trace := trace w; page := page w |}.

Definition store (k : CacheKey) (df : DataFrame) (expiry : Z) (w : World) : World :=
  set_cache (<[k := (df, expiry)]> (cache w)) w.

(** Time passes between two calls. *)
Definition tick (d : Z) (w : World) : World :=
  {| environ := environ w; clock := (clock w + d)%Z; cache := cache w;
     trace := trace w; page := page w |}.

(** ** Computations that read and update the process state and may raise *)

Definition M (A : Type) : Type := World → Result A * World.

Definition ret {A} (a : A) : M A := λ w, (Ok a, w).
Definition raise {A} (e : Exn) : M A := λ w, (Raise e, w).
Definition bind {A B} (m : M A) (k : A → M B) : M B :=
  λ w, match m w with
       | (Ok a, w') => k a w'
       | (Raise e, w') => (Raise e, w')
       end.

#[global] Instance M_ret : MRet M := @ret.
#[global] Instance M_bind : MBind M := λ A B k m, bind m k.
#[global] Instance M_fmap : FMap M := λ A B f m, bind m (λ a, ret (f a)).

Definition skip : M unit := ret ().

Definition log (ev : Event) : M unit := λ w, (Ok (), emit ev w).
Definition show (el : Element) : M unit := λ w, (Ok (), draw el w).

(** [with enter as _: body]: when [enter] succeeds, [exit] runs whether
    [body] returns or raises. *)
Definition with_ {A} (enter : M unit) (exit : Event) (body : M A) : M A :=
  λ w, match enter w with
       | (Ok _, w1) => let '(r, w2) := body w1 in (r, emit exit w2)
       | (Raise e, w1) => (Raise e, w1)
       end.

(** ** [sql_query] *)

(** One call into the client library: it raises when the warehouse outcome
    is a failure of this stage, and otherwise happens. *)
Definition attempt (o : Outcome) (st : Stage) (ev : Event) : M unit :=
  match o with
  | Fails f =>
      if decide (failure_stage f = st)
      then (log (EvFailed f) ;; raise (WarehouseError f))
      else log ev
  | Rows _ => log ev
  end.

Definition getenv (name : string) (w : World) : option string :=
  environ w !! name.

(** [f"/sql/1.0/warehouses/{os.getenv('DATABRICKS_WAREHOUSE_ID')}"] *)
Definition http_path (w : World) : string :=
  "/sql/1.0/warehouses/" +:+
  match getenv "DATABRICKS_WAREHOUSE_ID" w with
  | Some v => v
  | None => "None"
  end.

Definition sql_query `{Warehouse} (query : string) : M DataFrame :=
  λ w,
    let o := respond (clock w) query in
    (log (EvQuery query) ;;
     attempt o AtConfig EvConfig ;;
     with_ (attempt o AtConnect (EvConnect (http_path w))) EvCloseConnection
       (with_ (attempt o AtCursor EvCursor) EvCloseCursor
          (attempt o AtExecute (EvExecute query) ;;
           attempt o AtFetch EvFetch ;;
           match o with
           | Rows df => ret df
           | Fails f => raise (WarehouseError f)
           end))) w.

(** ** [st.cache_data(ttl=60)] *)

Definition ttl : Z := 60.

(** An entry answers a lookup while the clock is before its expiry. *)
Definition cache_lookup (k : CacheKey) (w : World) : option DataFrame :=
  match cache w !! k with
  | Some (df, expiry) => if bool_decide (clock w < expiry)%Z then Some df else None
  | None => None
  end.

(** Modelled from the spec: the memoising decorator of the UI framework,
    whose code is not part of the repository. "A mapping from (function
    identity, argument tuple) to (result, expiry timestamp). Entry is
    created on first access per key, reused until expiry, then recomputed.
    No explicit invalidation other than expiry." A call that raises stores
    nothing. *)
Definition cache_data (fname : string) (args : list PyVal)
    (body : M DataFrame) : M DataFrame :=
  log (EvCall fname args) ;;
  ((λ w, match cache_lookup (fname, args) w with
         | Some df => (Ok df, w)
         | None =>
             match body w with
             | (Ok df, w') => (Ok df, store (fname, args) df (clock w' + ttl)%Z w')
             | (Raise e, w') => (Raise e, w')
             end
         end) : M DataFrame).

(** ** The four accessors *)

Definition get_catalogs `{Warehouse} : M DataFrame :=
  cache_data "get_catalogs" [] (sql_query "SHOW CATALOGS").

Definition get_schemas `{Warehouse} (catalog : PyVal) : M DataFrame :=
  cache_data "get_schemas" [catalog]
    (sql_query ("SHOW SCHEMAS IN " +:+ py_str catalog)).

Definition get_tables `{Warehouse} (catalog schema : PyVal) : M DataFrame :=
  cache_data "get_tables" [catalog; schema]
    (sql_query ("SHOW TABLES IN " +:+ py_str catalog +:+ "." +:+ py_str schema)).

(** [limit: int = 10]. [None] is a call that leaves the argument out; the
    argument tuple of the call is then the three names alone. *)
Definition default_limit : Z := 10.

Definition limit_args (limit : option Z) : list PyVal :=
  match limit with
  | Some n => [PyInt n]
  | None => []
  end.

Definition get_table_data `{Warehouse} (catalog schema table : PyVal)
    (limit : option Z) : M DataFrame :=
  cache_data "get_table_data" ([catalog; schema; table] ++ limit_args limit)
    (sql_query ("SELECT * FROM " +:+ py_str catalog +:+ "." +:+ py_str schema
                +:+ "." +:+ py_str table
                +:+ " LIMIT " +:+ pretty (default default_limit limit))).

(** ** The widgets of the UI framework *)

(** What the browser session holds between two passes: the position chosen
    in each dropdown and the state of each checkbox. A widget without a
    [key] is identified by its label and, for a dropdown, the texts of its
    options; a dropdown whose options changed is a new widget. *)
Record Session := {
  selectboxes : gmap (string * list string) nat;
  checkboxes : gmap string bool
}.

(** [st.sidebar.selectbox(label, options)]: the option at the stored
    position (the first one for a new widget), [None] without options. *)
Definition selectbox (ss : Session) (label : string) (options : list PyVal)
    : M PyVal :=
  let idx := default 0%nat (selectboxes ss !! (label, py_str <$> options)) in
  match options with
  | [] => show (ElSelectbox label options PyNone) ;; mret PyNone
  | _ :: _ =>
      match options !! idx with
      | Some v => show (ElSelectbox label options v) ;; mret v
      | None => raise IndexError
      end
  end.

(** [st.sidebar.checkbox(label)], unchecked at first. *)
Definition checkbox (ss : Session) (label : string) : M bool :=
  let v := default false (checkboxes ss !! label) in
  show (ElCheckbox label v) ;; mret v.

(** The user picks position [idx] in a dropdown, or toggles a checkbox;
    the framework then re-runs the script. *)
Definition pick (label : string) (options : list PyVal) (idx : nat)
    (ss : Session) : Session :=
  {| selectboxes := <[(label, py_str <$> options) := idx]> (selectboxes ss);
     checkboxes := checkboxes ss |}.

Definition toggle (label : string) (v : bool) (ss : Session) : Session :=
  {| selectboxes := selectboxes ss;
     checkboxes := <[label := v]> (checkboxes ss) |}.

(** ** Pieces of Python used by the script *)

(** The values of column [col], when [df] has it. *)
Definition column_values (df : DataFrame) (col : string)
    : option (list PyVal) :=
  match list_find (λ c, c = col) (df_columns df) with
  | Some (i, _) => Some ((λ row, default PyNone (row !! i)) <$> df_rows df)
  | None => None
  end.

(** [df[col].tolist()] *)
Definition column (df : DataFrame) (col : string) : M (list PyVal) :=
  match column_values df col with
  | Some l => mret l
  | None => raise (KeyError col)
  end.

(** Reading a global name that an earlier branch may not have bound. *)
Definition name {A} (n : string) (v : option A) : M A :=
  match v with
  | Some a => mret a
  | None => raise (NameError n)
  end.

(** [a and b] as a condition: [b] is evaluated only when [a] is true. *)
Definition and_ (a : bool) (b : M bool) : M bool :=
  if a then b else mret false.

(** [assert os.getenv(name), msg]: the empty string is false like [None]. *)
Definition assert_env (var msg : string) : M unit :=
  λ w, match getenv var w with
       | Some v => if String.eqb v "" then (Raise (AssertionError msg), w)
                   else (Ok (), w)
       | None => (Raise (AssertionError msg), w)
       end.

(** A pass starts from an empty page. *)
Definition clear_page (w : World) : World :=
  {| environ := environ w; clock := clock w; cache := cache w;
     trace := trace w; page := [] |}.

Definition new_page : M unit := λ w, (Ok (), clear_page w).

(** ** The script *)

Definition missing_warehouse_id : string :=
  "DATABRICKS_WAREHOUSE_ID must be set in app.yaml.".

(** Steps 2 and 3 bind [schemas], [selected_schema], [tables] and
    [selected_table] only inside their [if]; [None] is a name that the pass
    has not bound. Titles, captions and styling are left out of the page. *)
Definition app `{Warehouse} (ss : Session) : M unit :=
  new_page ;;
  assert_env "DATABRICKS_WAREHOUSE_ID" missing_warehouse_id ;;
  (* Step 1: Select Catalog *)
  catalogs ← get_catalogs ;
  catalog_list ← column catalogs "catalog" ;
  selected_catalog ← selectbox ss "Select a Catalog" catalog_list ;
  (* Step 2: Select Schema *)
  '(schemas, selected_schema) ←
    (if py_truthy selected_catalog then
       schemas ← get_schemas selected_catalog ;
       schema_list ← column schemas "databaseName" ;
       selected_schema ← selectbox ss "Select a Schema" schema_list ;
       mret (Some schemas, Some selected_schema)
     else mret (None, None)) : M (option DataFrame * option PyVal) ;
  (* Step 3: Select Table *)
  c3 ← and_ (py_truthy selected_catalog)
         (py_truthy <$> name "selected_schema" selected_schema) ;
  '(tables, selected_table) ←
    (if c3 : bool then
       selected_schema ← name "selected_schema" selected_schema ;
       tables ← get_tables selected_catalog selected_schema ;
       table_list ← column tables "tableName" ;
       selected_table ← selectbox ss "Select a Table" table_list ;
       mret (Some tables, Some selected_table)
     else mret (None, None)) : M (option DataFrame * option PyVal) ;
  (* Step 4: Display Data *)
  show ElDivider ;;
  c4 ← and_ (py_truthy selected_catalog)
         (c ← py_truthy <$> name "selected_schema" selected_schema ;
          and_ c (py_truthy <$> name "selected_table" selected_table)) ;
  (if c4 : bool then
     selected_schema ← name "selected_schema" selected_schema ;
     selected_table ← name "selected_table" selected_table ;
     show (ElSubheader ("Data Preview: `" +:+ py_str selected_catalog +:+ "."
                        +:+ py_str selected_schema +:+ "."
                        +:+ py_str selected_table +:+ "`")) ;;
     data ← get_table_data selected_catalog selected_schema selected_table None ;
     show (ElDataframe data)
   else skip) ;;
  (* Additional Metadata Display *)
  show_schemas ← checkbox ss "Show Schemas Metadata" ;
  (if show_schemas : bool then
     show (ElSubheader ("Schemas in `" +:+ py_str selected_catalog +:+ "`")) ;;
     schemas ← name "schemas" schemas ;
     show (ElDataframe schemas)
   else skip) ;;
  show_tables ← checkbox ss "Show Tables Metadata" ;
  (if show_tables : bool then
     selected_schema ← name "selected_schema" selected_schema ;
     show (ElSubheader ("Tables in `" +:+ py_str selected_catalog +:+ "."
                        +:+ py_str selected_schema +:+ "`")) ;;
     tables ← name "tables" tables ;
     show (ElDataframe tables)
   else skip) ;;
  show ElDivider.

(** ** Vocabulary of the properties *)

(** A call of one of the four accessors, with the arguments it is given. *)
Inductive Accessor :=
  | ListCatalogs
  | ListSchemas (catalog : PyVal)
  | ListTables (catalog schema : PyVal)
  | PreviewTable (catalog schema table : PyVal) (limit : option Z).

Definition call `{Warehouse} (a : Accessor) : M DataFrame :=
  match a with
  | ListCatalogs => get_catalogs
  | ListSchemas c => get_schemas c
  | ListTables c s => get_tables c s
  | PreviewTable c s t n => get_table_data c s t n
  end.

(** The cache key of a call: function identity and argument tuple. *)
Definition key (a : Accessor) : CacheKey :=
  match a with
  | ListCatalogs => ("get_catalogs", [])
  | ListSchemas c => ("get_schemas", [c])
  | ListTables c s => ("get_tables", [c; s])
  | PreviewTable c s t n => ("get_table_data", [c; s; t] ++ limit_args n)
  end.

(** The four statement templates as the specification lists them, with
    [<x>] replaced by the text of the argument. *)
Definition template (a : Accessor) : string :=
  match a with
  | ListCatalogs => "SHOW CATALOGS"
  | ListSchemas c => "SHOW SCHEMAS IN " +:+ py_str c
  | ListTables c s => "SHOW TABLES IN " +:+ py_str c +:+ "." +:+ py_str s
  | PreviewTable c s t n =>
      "SELECT * FROM " +:+ py_str c +:+ "." +:+ py_str s +:+ "." +:+ py_str t
      +:+ " LIMIT " +:+ pretty (default 10%Z n)
  end.

(** The events that running [m] from [w] adds to the trace. *)
Definition during {A} (m : M A) (w : World) : list Event :=
  drop (length (trace w)) (trace (m w).2).

(** The statements handed to [sql_query] in a trace. *)
Definition queries (tr : list Event) : list string :=
  omap (λ ev, match ev with EvQuery q => Some q | _ => None end) tr.

(** The events of one exchange with the warehouse, by its outcome. *)
Definition sql_events (path query : string) (o : Outcome) : list Event :=
  [EvQuery query] ++
  match o with
  | Fails ConfigFailure => [EvFailed ConfigFailure]
  | Fails ConnectionFailure => [EvConfig; EvFailed ConnectionFailure]
  | Fails AuthFailure => [EvConfig; EvFailed AuthFailure]
  | Fails CursorFailure =>
      [EvConfig; EvConnect path; EvFailed CursorFailure; EvCloseConnection]
  | Fails QueryFailure =>
      [EvConfig; EvConnect path; EvCursor; EvFailed QueryFailure;
       EvCloseCursor; EvCloseConnection]
  | Fails FetchFailure =>
      [EvConfig; EvConnect path; EvCursor; EvExecute query;
       EvFailed FetchFailure; EvCloseCursor; EvCloseConnection]
  | Rows _ =>
      [EvConfig; EvConnect path; EvCursor; EvExecute query; EvFetch;
       EvCloseCursor; EvCloseConnection]
  end.

Definition sql_result (o : Outcome) : Result DataFrame :=
  match o with
  | Fails f => Raise (WarehouseError f)
  | Rows df => Ok df
  end.

(** What the client holds at a point of a trace. *)
Inductive Held := Nothing | Connection | ConnectionAndCursor.

#[global] Instance Held_eq_dec : EqDecision Held.
Proof. solve_decision. Defined.

(** The discipline of the client: a cursor lives inside its connection,
    statements run on an open cursor, and releases undo acquisitions in
    reverse order. [None] is a trace that breaks it. *)
Definition held_step (h : Held) (ev : Event) : option Held :=
  match ev, h with
  | EvConnect _, Nothing => Some Connection
  | EvConnect _, _ => None
  | EvCursor, Connection => Some ConnectionAndCursor
  | EvCursor, _ => None
  | (EvExecute _ | EvFetch), ConnectionAndCursor => Some ConnectionAndCursor
  | (EvExecute _ | EvFetch), _ => None
  | EvCloseCursor, ConnectionAndCursor => Some Connection
  | EvCloseCursor, _ => None
  | EvCloseConnection, Connection => Some Nothing
  | EvCloseConnection, _ => None
  | (EvCall _ _ | EvQuery _ | EvConfig | EvFailed _), _ => Some h
  end.

Fixpoint held_after (h : Held) (tr : list Event) : option Held :=
  match tr with
  | [] => Some h
  | ev :: tr' =>
      match held_step h ev with
      | Some h' => held_after h' tr'
      | None => None
      end
  end.

(** The result set [df] is what the warehouse answered to [q] at some time
    within the last [ttl] seconds before [now]. *)
Definition fresh_answer `{Warehouse} (now : Z) (q : string) (df : DataFrame)
    : Prop :=
  ∃ t, (now - ttl < t ≤ now)%Z ∧ respond t q = Rows df.

(** Every entry of the cache is the answer that the warehouse gave, when
    the entry was created, to the statement of the call it is stored for. *)
Definition sound `{Warehouse} (now : Z) (c : gmap CacheKey (DataFrame * Z))
    : Prop :=
  ∀ k df expiry, c !! k = Some (df, expiry) →
    (expiry - ttl ≤ now)%Z ∧
    ∃ a, k = key a ∧ respond (expiry - ttl) (template a) = Rows df.

(** The process starts with an empty cache. *)
Definition boot (env : gmap string string) (now : Z) : World :=
  {| environ := env; clock := now; cache := ∅; trace := []; page := [] |}.

(** The limit argument of a call, when it passes one. *)
Definition limit_of (a : Accessor) : option Z :=
  match a with
  | PreviewTable _ _ _ n => n
  | _ => None
  end.

(** The page [p] has, at position [i], the drop-down [label] with options
    [opts] and value [v]. *)
Definition shows (p : list Element) (i : nat) (label : string)
    (opts : list PyVal) (v : PyVal) : Prop :=
  p !! i = Some (ElSelectbox label opts v).



(** The states of the process: it starts with an empty cache, time passes,
    accessors are called and the script is run, in any order. *)
Inductive reachable `{Warehouse} : World → Prop :=
  | reach_boot env now : reachable (boot env now)
  | reach_tick d w : (0 ≤ d)%Z → reachable w → reachable (tick d w)
  | reach_call a w : reachable w → reachable (call a w).2
  | reach_pass ss w : reachable w → reachable (app ss w).2.

(** The start-up check refuses to run: the assertion fails and nothing is
    sent anywhere. *)
Definition refused `{Warehouse} (ss : Session) (w : World) : Prop :=
  (app ss w).1 = Raise (AssertionError missing_warehouse_id) ∧
  during (app ss) w = [].

(** The run gets past the start-up check, to its first accessor call. *)
Definition proceeds `{Warehouse} (ss : Session) (w : World) : Prop :=
  (∀ msg, (app ss w).1 ≠ Raise (AssertionError msg)) ∧
  ∃ seg, during (app ss) w = EvCall "get_catalogs" [] :: seg.

(** ** A small warehouse to run the script on *)

Definition strings_frame (col : string) (l : list string) : DataFrame :=
  {| df_columns := [col]; df_rows := (λ s, [PyStr s]) <$> l |}.

(** Two catalogs: [main] with schemas [default] and [sales], and [empty]
    without any. Table [main.default.t1] has columns [id] and [name] and
    three rows. *)
Definition demo_t1 : DataFrame :=
  {| df_columns := ["id"; "name"];
     df_rows := [[PyInt 1; PyStr "a"]; [PyInt 2; PyStr "b"];
                 [PyInt 3; PyStr "c"]] |}.

Definition demo_preview (n : Z) : DataFrame :=
  {| df_columns := df_columns demo_t1;
     df_rows := take (Z.to_nat n) (df_rows demo_t1) |}.

Definition demo : Warehouse := λ _ q,
  if String.eqb q "SHOW CATALOGS"
  then Rows (strings_frame "catalog" ["main"; "empty"])
  else if String.eqb q "SHOW SCHEMAS IN main"
  then Rows (strings_frame "databaseName" ["default"; "sales"])
  else if String.eqb q "SHOW SCHEMAS IN empty"
  then Rows (strings_frame "databaseName" [])
  else if String.eqb q "SHOW TABLES IN main.default"
  then Rows (strings_frame "tableName" ["t1"])
  else if String.eqb q "SHOW TABLES IN main.sales"
  then Rows (strings_frame "tableName" ["orders"])
  else if String.eqb q "SELECT * FROM main.default.t1 LIMIT 10"
  then Rows (demo_preview 10)
  else if String.eqb q "SELECT * FROM main.default.t1 LIMIT 5"
  then Rows (demo_preview 5)
  else if String.eqb q "SELECT * FROM main.sales.orders LIMIT 10"
  then Rows (strings_frame "amount" ["12"; "7"])
  else Fails QueryFailure.

Definition demo_env : gmap string string :=
  {["DATABRICKS_WAREHOUSE_ID" := "abc123"]}.

Definition demo_world : World := boot demo_env 0.

Definition no_choice : Session := {| selectboxes := ∅; checkboxes := ∅ |}.

Definition demo_catalogs : list PyVal := [PyStr "main"; PyStr "empty"].
Definition demo_schemas : list PyVal := [PyStr "default"; PyStr "sales"].

(** The user has picked schema [sales] under catalog [main]. *)
Definition chose_sales : Session :=
  pick "Select a Schema" demo_schemas 1 no_choice.

(** ... and then picks catalog [empty]. *)
Definition then_chose_empty : Session :=
  pick "Select a Catalog" demo_catalogs 1 chose_sales.

(** Catalog [empty] is selected and the box of the tables metadata is
    ticked. *)
Definition empty_with_tables_metadata : Session :=
  toggle "Show Tables Metadata" true
    (pick "Select a Catalog" demo_catalogs 1 no_choice).

(** The variable is set, to the empty string. *)
Definition blank_id_world : World :=
  boot {["DATABRICKS_WAREHOUSE_ID" := ""]} 0.

(** Five seconds after a first pass in which [sales] was chosen. *)
Definition after_first_pass : World :=
  tick 5 (app (H:=demo) chose_sales demo_world).2.

(** The schemas of [main] were listed at time 0; [d] seconds have passed. *)
Definition listed_main (d : Z) : World :=
  tick d (call (H:=demo) (ListSchemas (PyStr "main")) demo_world).2.

(** ** Reasoning about a pass *)

(** [wp m Q w]: running [m] from [w] ends in a result and a state that
    satisfy [Q]. *)
Definition wp {A} (m : M A) (Q : Result A → World → Prop) (w : World) : Prop :=
  Q (m w).1 (m w).2.

(** Continuation of a postcondition through a bind: go on after a value,
    stop at an exception. *)
Definition after {A B} (k : A → M B) (Q : Result B → World → Prop)
    (r : Result A) (w : World) : Prop :=
  match r with
  | Ok a => wp (k a) Q w
  | Raise e => Q (Raise e) w
  end.

(** A failure [f] of the warehouse ends a trace: it happens once, nothing
    was raised before it, and only releases follow it. *)
Definition failure_last (seg : list Event) (f : Failure) : Prop :=
  ∃ pre post, seg = pre ++ EvFailed f :: post ∧
    (∀ f', EvFailed f' ∉ pre) ∧
    (∀ ev, ev ∈ post → ev = EvCloseCursor ∨ ev = EvCloseConnection).

(** What one accessor call in cache [c] at time [now] can do: its result
    [r], the cache [c'] it leaves and the events [seg] that follow its call
    event. *)
Definition call_facts `{Warehouse} (a : Accessor) (now : Z)
    (c : gmap CacheKey (DataFrame * Z)) (r : Result DataFrame)
    (c' : gmap CacheKey (DataFrame * Z)) (seg : list Event) : Prop :=
  (sound now c → sound now c') ∧
  (∀ fname args, EvCall fname args ∉ seg) ∧
  (∀ q, EvQuery q ∈ seg → q = template a) ∧
  match r with
  | Ok df =>
      (sound now c → fresh_answer now (template a) df) ∧
      (∀ f, EvFailed f ∉ seg)
  | Raise e => ∃ f, e = WarehouseError f ∧ failure_last seg f
  end.

(** ** Vocabulary of further properties of a pass *)

(** The names of the accessors called in a trace, in order. *)
Definition calls (tr : list Event) : list string :=
  omap (λ ev, match ev with EvCall f _ => Some f | _ => None end) tr.

(** The values of the drop-downs of a page, from top to bottom. *)
Definition selected (p : list Element) : list PyVal :=
  omap (λ el, match el with ElSelectbox _ _ v => Some v | _ => None end) p.

(** The checkbox [label] is ticked in the session. *)
Definition ticked (ss : Session) (label : string) : Prop :=
  default false (checkboxes ss !! label) = true.

(** [http_path] as a function of the environment alone. *)
Definition warehouse_path (env : gmap string string) : string :=
  "/sql/1.0/warehouses/" +:+
  match env !! "DATABRICKS_WAREHOUSE_ID" with
  | Some v => v
  | None => "None"
  end.

(** What the events [seg] of one accessor call do to the warehouse: they
    leave nothing held, connect to [path] only, and hand at most the one
    statement [query] to the executor. *)
Definition call_discipline (path query : string) (seg : list Event) : Prop :=
  held_after Nothing seg = Some Nothing ∧
  (∀ p, EvConnect p ∈ seg → p = path) ∧
  (queries seg = [] ∨ queries seg = [query]).

(** The calls of Steps 1 to 4 for the selections [sel] of a page. *)
Definition cascade (sel : list PyVal) : list Accessor :=
  ListCatalogs ::
  match sel with
  | [] => []
  | c :: sel1 =>
      ListSchemas c ::
      match sel1 with
      | [] => []
      | s :: sel2 =>
          ListTables c s ::
          match sel2 with
          | [] => []
          | t :: _ => [PreviewTable c s t None]
          end
      end
  end.

(** The column that the script reads from the result of a call. *)
Definition expected_column (a : Accessor) : option string :=
  match a with
  | ListCatalogs => Some "catalog"
  | ListSchemas _ => Some "databaseName"
  | ListTables _ _ => Some "tableName"
  | PreviewTable _ _ _ _ => None
  end.

(** The value that [selectbox] returns; [None] when the stored position
    is out of range. *)
Definition chosen (ss : Session) (label : string) (options : list PyVal)
    : option PyVal :=
  match options with
  | [] => Some PyNone
  | _ :: _ =>
      options !! default 0%nat (selectboxes ss !! (label, py_str <$> options))
  end.

(** The entry for [k] in [c] holds [df] and is still valid [d] seconds
    after [now]. *)
Definition lasting (d now : Z) (c : gmap CacheKey (DataFrame * Z))
    (k : CacheKey) (df : DataFrame) : Prop :=
  ∃ e, c !! k = Some (df, e) ∧ (now + d < e)%Z.

(** No entry of [c] expires between [now] and [d] seconds later. *)
Definition settled (d now : Z) (c : gmap CacheKey (DataFrame * Z)) : Prop :=
  ∀ k df e, c !! k = Some (df, e) → (e ≤ now ∨ now + d < e)%Z.

(** What one accessor call does to the entries that outlive the next [d]
    seconds: it keeps them and adds its own result to them. *)
Definition call_keeps (a : Accessor) (d now : Z)
    (c : gmap CacheKey (DataFrame * Z)) (r : Result DataFrame)
    (c' : gmap CacheKey (DataFrame * Z)) : Prop :=
  (settled d now c → settled d now c') ∧
  (∀ k df, lasting d now c k df → lasting d now c' k df) ∧
  (settled d now c → ∀ df, r = Ok df → lasting d now c' (key a) df).

(** A warehouse whose answers lack the columns that the script reads. *)
Definition headless : Warehouse := λ _ _,
  Rows (strings_frame "name" ["main"]).

(** Both metadata boxes are ticked, nothing else chosen. *)
Definition all_metadata : Session :=
  toggle "Show Schemas Metadata" true
    (toggle "Show Tables Metadata" true no_choice).

(** ** A change of catalog *)




(** Two catalogs [a] and [b] whose schemas have the same names. *)
Definition twin_catalogs : list PyVal := [PyStr "a"; PyStr "b"].
Definition twin_schemas : list PyVal := [PyStr "default"; PyStr "sales"].

Definition twins : Warehouse := λ _ q,
  if String.eqb q "SHOW CATALOGS"
  then Rows (strings_frame "catalog" ["a"; "b"])
  else if String.eqb q "SHOW SCHEMAS IN a"
  then Rows (strings_frame "databaseName" ["default"; "sales"])
  else if String.eqb q "SHOW SCHEMAS IN b"
  then Rows (strings_frame "databaseName" ["default"; "sales"])
  else if String.eqb q "SHOW TABLES IN a.default"
  then Rows (strings_frame "tableName" ["t1"])
  else if String.eqb q "SHOW TABLES IN a.sales"
  then Rows (strings_frame "tableName" ["orders"])
  else if String.eqb q "SHOW TABLES IN b.default"
  then Rows (strings_frame "tableName" ["u1"])
  else if String.eqb q "SHOW TABLES IN b.sales"
  then Rows (strings_frame "tableName" ["returns"])
  else if String.eqb q "SELECT * FROM a.sales.orders LIMIT 10"
  then Rows (strings_frame "amount" ["12"; "7"])
  else if String.eqb q "SELECT * FROM b.sales.returns LIMIT 10"
  then Rows (strings_frame "amount" ["3"])
  else if String.eqb q "SELECT * FROM b.default.u1 LIMIT 10"
  then Rows (strings_frame "id" ["1"])
  else Fails QueryFailure.

(** Under catalog [a], which a new session shows, the user picked schema
    [sales]. *)
Definition chose_sales_under_a : Session :=
  pick "Select a Schema" twin_schemas 1 no_choice.

(** Five seconds after the pass that showed [a] and [sales]. *)
Definition after_sales_under_a : World :=
  tick 5 (app (H:=twins) chose_sales_under_a demo_world).2.

(** ** Previews beyond the limit *)



(** * Properties *)

(** ** World updates *)

Lemma emits_emits l1 l2 w : emits l2 (emits l1 w) = emits (l1 ++ l2) w.
Proof. unfold emits; simpl. by rewrite (assoc_L (++)). Qed.

Section accessors.
Context `{Warehouse}.

(** ** The query executor, outcome by outcome *)

Lemma sql_query_run q w :
  sql_query q w =
  (sql_result (respond (clock w) q),
   emits (sql_events (http_path w) q (respond (clock w) q)) w).
Proof.
  unfold sql_query. simpl.
  destruct (respond (clock w) q) as [[]|df]; simpl;
    unfold mbind, M_bind, bind, with_, attempt, log, raise, ret, emit; simpl;
    by rewrite ?emits_emits.
Qed.

Lemma cache_data_run fname args q w :
  cache_data fname args (sql_query q) w =
  match cache_lookup (fname, args) w with
  | Some df => (Ok df, emit (EvCall fname args) w)
  | None =>
      let o := respond (clock w) q in
      let w' := emits (EvCall fname args :: sql_events (http_path w) q o) w in
      match o with
      | Rows df => (Ok df, store (fname, args) df (clock w + ttl)%Z w')
      | Fails f => (Raise (WarehouseError f), w')
      end
  end.
Proof.
  unfold cache_data, mbind, M_bind, bind, log. simpl.
  change (cache_lookup (fname, args) (emit (EvCall fname args) w))
    with (cache_lookup (fname, args) w).
  destruct (cache_lookup (fname, args) w) as [df|]; [done|].
  rewrite sql_query_run. unfold emit. rewrite emits_emits. simpl.
  change (http_path (emits [EvCall fname args] w)) with (http_path w).
  by destruct (respond (clock w) q).
Qed.

Lemma call_unfold a :
  call a = cache_data (key a).1 (key a).2 (sql_query (template a)).
Proof. by destruct a. Qed.

Lemma call_run a w :
  call a w =
  match cache_lookup (key a) w with
  | Some df => (Ok df, emit (EvCall (key a).1 (key a).2) w)
  | None =>
      let o := respond (clock w) (template a) in
      let w' := emits (EvCall (key a).1 (key a).2
                       :: sql_events (http_path w) (template a) o) w in
      match o with
      | Rows df => (Ok df, store (key a) df (clock w + ttl)%Z w')
      | Fails f => (Raise (WarehouseError f), w')
      end
  end.
Proof.
  rewrite call_unfold, cache_data_run. by destruct (key a).
Qed.

Lemma key_inj a b : key a = key b → a = b.
Proof.
  destruct a as [| | |? ? ? [?|]], b as [| | |? ? ? [?|]]; simpl; congruence.
Qed.

Lemma queries_app l1 l2 : queries (l1 ++ l2) = queries l1 ++ queries l2.
Proof. apply omap_app. Qed.

Lemma queries_sql_events path q o : queries (sql_events path q o) = [q].
Proof. by destruct o as [[]|]. Qed.

Lemma call_clock a w : clock (call a w).2 = clock w.
Proof.
  rewrite call_run. destruct (cache_lookup (key a) w); [done|].
  simpl. by destruct (respond (clock w) (template a)).
Qed.

Lemma cache_lookup_fresh k w df expiry :
  cache w !! k = Some (df, expiry) → (clock w < expiry)%Z →
  cache_lookup k w = Some df.
Proof.
  intros Hk Hlt. unfold cache_lookup. rewrite Hk.
  by rewrite bool_decide_eq_true_2.
Qed.

Lemma cache_lookup_expired k w df expiry :
  cache w !! k = Some (df, expiry) → (expiry ≤ clock w)%Z →
  cache_lookup k w = None.
Proof.
  intros Hk Hle. unfold cache_lookup. rewrite Hk.
  rewrite bool_decide_eq_false_2; [done|lia].
Qed.

Lemma cache_lookup_Some k w df :
  cache_lookup k w = Some df →
  ∃ expiry, cache w !! k = Some (df, expiry) ∧ (clock w < expiry)%Z.
Proof.
  unfold cache_lookup. destruct (cache w !! k) as [[df' e]|]; [|done].
  case_bool_decide; [|done]. intros [= ->]. eauto.
Qed.

(** A call that is answered from the cache adds its own call event and
    nothing else. *)
Lemma call_hit a w df :
  cache_lookup (key a) w = Some df →
  call a w = (Ok df, emit (EvCall (key a).1 (key a).2) w).
Proof. intros Hk. by rewrite call_run, Hk. Qed.

(** The invariant of the cache: established at start, kept by every call
    and by the passing of time. *)
Lemma sound_empty now : sound now ∅.
Proof. intros k df e Hk. by rewrite lookup_empty in Hk. Qed.

Lemma sound_later now d c : (0 ≤ d)%Z → sound now c → sound (now + d) c.
Proof.
  intros Hd Hc k df e Hk. destruct (Hc k df e Hk) as [Hle Ha].
  split; [lia|done].
Qed.

Lemma sound_call a w :
  sound (clock w) (cache w) →
  sound (clock (call a w).2) (cache (call a w).2).
Proof.
  intros Hs. rewrite call_clock, call_run.
  destruct (cache_lookup (key a) w); [done|]. simpl.
  destruct (respond (clock w) (template a)) as [f|df] eqn:Ho; [done|].
  simpl. intros k df' e Hk.
  destruct (decide (k = key a)) as [->|Hne].
  - rewrite lookup_insert_eq in Hk. injection Hk as <- <-.
    split; [unfold ttl; lia|]. exists a. split; [done|].
    by replace (clock w + ttl - ttl)%Z with (clock w) by lia.
  - rewrite lookup_insert_ne in Hk by done. by apply Hs.
Qed.

(** What a call returns is an answer of the warehouse to the statement of
    this very call, at most [ttl] seconds old. *)
Lemma call_fresh_answer a w df :
  sound (clock w) (cache w) →
  (call a w).1 = Ok df →
  fresh_answer (clock w) (template a) df.
Proof.
  intros Hs. rewrite call_run.
  destruct (cache_lookup (key a) w) as [df'|] eqn:Hk.
  - simpl. intros [= ->].
    apply cache_lookup_Some in Hk as (e & Hk & Hlt).
    destruct (Hs _ _ _ Hk) as (Hle & b & Hb & Hr).
    apply key_inj in Hb as <-.
    exists (e - ttl)%Z. split; [lia|done].
  - simpl. destruct (respond (clock w) (template a)) as [f|df'] eqn:Ho;
      simpl; [done|]. intros [= ->].
    exists (clock w). split; [unfold ttl; lia|done].
Qed.

End accessors.

Section accessor_claims.
Context `{Warehouse}.

(** C3. Two calls of the same accessor with the same arguments, the second
    one less than [ttl] = 60 seconds after the first one created the cache
    entry: the second call returns the very result of the first, adds
    nothing but its own call event to the trace (the warehouse is not
    contacted), and over both calls exactly one statement reached the
    executor. *)
Theorem repeated_call_within_window a w r1 w1 d :
  cache_lookup (key a) w = None →
  call a w = (Ok r1, w1) →
  (0 ≤ d < 60)%Z →
  (call a (tick d w1)).1 = Ok r1 ∧
  during (call a) (tick d w1) = [EvCall (key a).1 (key a).2] ∧
  queries (drop (length (trace w)) (trace (call a (tick d w1)).2))
    = [template a].
Proof.
  intros Hmiss Hcall Hd.
  rewrite call_run, Hmiss in Hcall. simpl in Hcall.
  destruct (respond (clock w) (template a)) as [f|df] eqn:Ho; [done|].
  injection Hcall as <- <-.
  set (w1 := store _ _ _ _).
  assert (cache_lookup (key a) (tick d w1) = Some df) as Hhit.
  { apply cache_lookup_fresh with (clock w + ttl)%Z.
    - simpl. apply lookup_insert_eq.
    - simpl. unfold ttl. lia. }
  rewrite (call_hit _ _ _ Hhit). simpl. split; [done|].
  split.
  - unfold during. rewrite (call_hit _ _ _ Hhit). simpl.
    by rewrite drop_app_length.
  - rewrite <- (assoc_L (++)), drop_app_length.
    by rewrite queries_app.
Qed.

(** C4. An entry created at [created] is passed over once more than 60
    seconds have elapsed: the next call with the same arguments hands its
    statement to the executor again and, when the warehouse answers,
    returns the new answer and stores it with a new expiry in place of the
    old entry. *)
Theorem expired_entry_is_recomputed a w old created :
  cache w !! key a = Some (old, created + 60)%Z →
  (clock w - created > 60)%Z →
  queries (during (call a) w) = [template a] ∧
  match respond (clock w) (template a) with
  | Rows df =>
      (call a w).1 = Ok df ∧
      cache (call a w).2 !! key a = Some (df, clock w + 60)%Z
  | Fails f => (call a w).1 = Raise (WarehouseError f)
  end.
Proof.
  intros Hentry Hlate.
  assert (cache_lookup (key a) w = None) as Hmiss.
  { apply cache_lookup_expired with old (created + 60)%Z; [done|lia]. }
  unfold during. rewrite call_run, Hmiss. simpl.
  destruct (respond (clock w) (template a)) as [f|df]; simpl;
    rewrite drop_app_length;
    change (queries (?e :: sql_events ?p ?q ?o)) with (queries (sql_events p q o));
    rewrite queries_sql_events; (split; [done|]); [done|].
  split; [done|]. apply lookup_insert_eq.
Qed.

(** C5. The statements that a call hands to the executor: none when the
    cache answers, and otherwise exactly one, the text of the template of
    the accessor with [str] of each argument put in place, unchanged. *)
Theorem accessors_send_templates a w :
  queries (during (call a) w) =
  match cache_lookup (key a) w with
  | Some _ => []
  | None => [template a]
  end.
Proof.
  unfold during. rewrite call_run.
  destruct (cache_lookup (key a) w); simpl.
  - by rewrite drop_app_length.
  - destruct (respond (clock w) (template a)); simpl;
      rewrite drop_app_length;
      change (queries (?e :: sql_events ?p ?q ?o)) with (queries (sql_events p q o));
      by rewrite queries_sql_events.
Qed.

(** C7. The events of one call of [sql_query] follow the discipline of the
    client and leave nothing held. When the exchange reaches the statement,
    both the connection and the cursor were opened in the call and both
    are closed after the outcome, be it a result or a failure; a failure
    to obtain the cursor closes the connection; a failure before the
    connection exists opens nothing. *)
Theorem sql_query_releases q w :
  held_after Nothing (during (sql_query q) w) = Some Nothing ∧
  match respond (clock w) q with
  | Rows df =>
      (sql_query q w).1 = Ok df ∧
      [EvConnect (http_path w); EvCursor; EvExecute q; EvFetch;
       EvCloseCursor; EvCloseConnection] `sublist_of` during (sql_query q) w
  | Fails f =>
      (sql_query q w).1 = Raise (WarehouseError f) ∧
      match failure_stage f with
      | AtExecute | AtFetch =>
          [EvConnect (http_path w); EvCursor; EvFailed f;
           EvCloseCursor; EvCloseConnection]
            `sublist_of` during (sql_query q) w
      | AtCursor =>
          [EvConnect (http_path w); EvFailed f; EvCloseConnection]
            `sublist_of` during (sql_query q) w
      | AtConfig | AtConnect =>
          filter (λ ev, ev = EvConnect (http_path w) ∨ ev = EvCursor)
            (during (sql_query q) w) = []
      end
  end.
Proof.
  unfold during. rewrite sql_query_run. simpl. rewrite drop_app_length.
  destruct (respond (clock w) q) as [[]|df]; simpl;
    (split; [done|]); (split; [done|]);
    try done;
    repeat first [ apply sublist_nil | apply sublist_skip | apply sublist_cons ].
Qed.

End accessor_claims.

(** ** Rules for the steps of the script *)

(** Membership in an explicit list of events. *)
Ltac mem :=
  repeat (rewrite ?elem_of_cons, ?elem_of_nil, ?elem_of_app in * );
  intuition (try congruence).

Lemma failure_last_sql_events path q f :
  failure_last (sql_events path q (Fails f)) f.
Proof.
  destruct f; unfold sql_events; simpl.
  - exists [EvQuery q], []. split; [done|]. split; intros ? ?; mem.
  - exists [EvQuery q; EvConfig], []. split; [done|]. split; intros ? ?; mem.
  - exists [EvQuery q; EvConfig], []. split; [done|]. split; intros ? ?; mem.
  - exists [EvQuery q; EvConfig; EvConnect path], [EvCloseConnection].
    split; [done|]. split; intros ? ?; mem.
  - exists [EvQuery q; EvConfig; EvConnect path; EvCursor],
      [EvCloseCursor; EvCloseConnection].
    split; [done|]. split; intros ? ?; mem.
  - exists [EvQuery q; EvConfig; EvConnect path; EvCursor; EvExecute q],
      [EvCloseCursor; EvCloseConnection].
    split; [done|]. split; intros ? ?; mem.
Qed.

Lemma sql_events_no_call path q o fname args :
  EvCall fname args ∉ sql_events path q o.
Proof. destruct o as [[]|]; unfold sql_events; simpl; intros ?; mem. Qed.

Lemma sql_events_query path q o q' :
  EvQuery q' ∈ sql_events path q o → q' = q.
Proof. destruct o as [[]|]; unfold sql_events; simpl; intros ?; mem. Qed.

Lemma sql_events_rows_no_failure path q df f :
  EvFailed f ∉ sql_events path q (Rows df).
Proof. unfold sql_events; simpl; intros ?; mem. Qed.

Section rules.
Context `{Warehouse}.

Lemma wp_bind {A B} (m : M A) (k : A → M B) Q w :
  wp m (after k Q) w → wp (m ≫= k) Q w.
Proof.
  unfold wp, after, mbind, M_bind, bind.
  by destruct (m w) as [[a|e] w'].
Qed.

Lemma wp_fmap {A B} (f : A → B) (m : M A) Q w :
  wp m (after (λ a, mret (f a)) Q) w → wp (f <$> m) Q w.
Proof. apply wp_bind. Qed.

Lemma wp_ret {A} (a : A) Q w : Q (Ok a) w → wp (mret a) Q w.
Proof. done. Qed.

Lemma wp_skip Q w : Q (Ok ()) w → wp skip Q w.
Proof. done. Qed.

Lemma wp_show el Q w : Q (Ok ()) (draw el w) → wp (show el) Q w.
Proof. done. Qed.

Lemma wp_new_page Q w : Q (Ok ()) (clear_page w) → wp new_page Q w.
Proof. done. Qed.

Lemma wp_assert_env var msg Q w :
  match getenv var w with
  | Some v => if String.eqb v "" then Q (Raise (AssertionError msg)) w
              else Q (Ok ()) w
  | None => Q (Raise (AssertionError msg)) w
  end →
  wp (assert_env var msg) Q w.
Proof.
  unfold wp, assert_env. destruct (getenv var w) as [v|]; [|done].
  by destruct (String.eqb v "").
Qed.

Lemma wp_name {A} n (v : option A) Q w :
  match v with
  | Some a => Q (Ok a) w
  | None => Q (Raise (NameError n)) w
  end →
  wp (name n v) Q w.
Proof. by destruct v. Qed.

Lemma wp_and (a : bool) b Q w :
  (if a then wp b Q w else Q (Ok false) w) → wp (and_ a b) Q w.
Proof. by destruct a. Qed.

Lemma wp_column df col Q w :
  match column_values df col with
  | Some l => Q (Ok l) w
  | None => Q (Raise (KeyError col)) w
  end →
  wp (column df col) Q w.
Proof. unfold wp, column. by destruct (column_values df col). Qed.

(** A dropdown returns one of its options, or [None] when it has none. *)
Lemma wp_selectbox ss label opts Q w :
  (∀ v, v ∈ opts ∨ (opts = [] ∧ v = PyNone) →
        Q (Ok v) (draw (ElSelectbox label opts v) w)) →
  Q (Raise IndexError) w →
  wp (selectbox ss label opts) Q w.
Proof.
  intros Hok Herr. unfold wp, selectbox.
  destruct opts as [|o opts]; [apply Hok; by right|].
  destruct (_ !! _) as [v|] eqn:Hv; [|done].
  apply Hok. left. by eapply list_elem_of_lookup_2.
Qed.

Lemma wp_checkbox ss label Q w :
  (let b := default false (checkboxes ss !! label) in
   Q (Ok b) (draw (ElCheckbox label b) w)) →
  wp (checkbox ss label) Q w.
Proof. intros HQ. apply HQ. Qed.

Lemma call_facts_run a w :
  ∃ r c' seg,
    call a w = (r, set_cache c' (emits (EvCall (key a).1 (key a).2 :: seg) w)) ∧
    call_facts a (clock w) (cache w) r c' seg.
Proof.
  pose proof (sound_call a w) as Hsound.
  pose proof (call_fresh_answer a w) as Hfresh.
  rewrite call_clock in Hsound. rewrite call_run in Hsound, Hfresh.
  rewrite call_run.
  destruct (cache_lookup (key a) w) as [df|] eqn:Hk.
  - exists (Ok df), (cache w), []. split; [by destruct w|].
    split; [done|]. split; [intros ? ? ?; mem|]. split; [intros ? ?; mem|].
    split; [|intros ? ?; mem]. intros Hs. by apply Hfresh.
  - simpl in *. destruct (respond (clock w) (template a)) as [f|df] eqn:Ho.
    + exists (Raise (WarehouseError f)), (cache w),
        (sql_events (http_path w) (template a) (Fails f)).
      split; [by destruct w|]. split; [done|].
      split; [intros; apply sql_events_no_call|].
      split; [intros ?; apply sql_events_query|].
      exists f. split; [done|]. apply failure_last_sql_events.
    + exists (Ok df), (<[key a := (df, (clock w + ttl)%Z)]> (cache w)),
        (sql_events (http_path w) (template a) (Rows df)).
      split; [done|]. split; [done|].
      split; [intros; apply sql_events_no_call|].
      split; [intros ?; apply sql_events_query|].
      split; [|intros; apply sql_events_rows_no_failure].
      intros Hs. by apply Hfresh.
Qed.

Lemma wp_call a Q w :
  (∀ r c' seg, call_facts a (clock w) (cache w) r c' seg →
     Q r (set_cache c' (emits (EvCall (key a).1 (key a).2 :: seg) w))) →
  wp (call a) Q w.
Proof.
  intros HQ. destruct (call_facts_run a w) as (r & c' & seg & Hrun & Hfacts).
  unfold wp. rewrite Hrun. by apply HQ.
Qed.

End rules.

(** ** Running the script symbolically *)

Lemma failure_last_cons ev seg f :
  (∀ f', ev ≠ EvFailed f') → failure_last seg f → failure_last (ev :: seg) f.
Proof.
  intros Hev (pre & post & -> & Hpre & Hpost).
  exists (ev :: pre), post. split; [done|]. split; [|done].
  intros f' [Heq|Hin]%elem_of_cons; [by apply (Hev f')|by eapply Hpre].
Qed.

Lemma failure_last_app l seg f :
  (∀ f', EvFailed f' ∉ l) → failure_last seg f → failure_last (l ++ seg) f.
Proof.
  intros Hl (pre & post & -> & Hpre & Hpost).
  exists (l ++ pre), post. split; [by rewrite (assoc_L (++))|]. split; [|done].
  intros f' [Hin|Hin]%elem_of_app; [by eapply Hl|by eapply Hpre].
Qed.

Lemma failure_last_only seg f f' :
  failure_last seg f → EvFailed f' ∈ seg → f' = f.
Proof.
  intros (pre & post & -> & Hpre & Hpost) [Hin|Hin]%elem_of_app.
  - by destruct (Hpre _ Hin).
  - apply elem_of_cons in Hin as [[= ->]|Hin]; [done|].
    by destruct (Hpost _ Hin).
Qed.

Ltac in_cases :=
  repeat match goal with
  | H : _ ∈ _ ++ _ |- _ => apply elem_of_app in H as [H|H]
  | H : _ ∈ _ :: _ |- _ => apply elem_of_cons in H as [H|H]
  | H : _ ∈ [] |- _ => apply elem_of_nil in H; destruct H
  end.

Ltac absurd_event :=
  match goal with
  | Hn : ∀ f a, EvCall f a ∉ ?s, H : EvCall _ _ ∈ ?s |- _ =>
      destruct (Hn _ _ H)
  | Hn : ∀ f, EvFailed f ∉ ?s, H : EvFailed _ ∈ ?s |- _ =>
      destruct (Hn _ H)
  end.

Ltac last_failure :=
  repeat first
    [ assumption
    | apply failure_last_cons; [discriminate|]
    | apply failure_last_app;
      [intros ? ?; in_cases; first [discriminate|absurd_event]|] ].

(** One accessor call: its result is a value or a failure of the
    warehouse, with the facts of [call_facts] in the context. *)
Ltac wp_call_as a :=
  apply (wp_call a);
  let r := fresh "r" in let c := fresh "c" in let seg := fresh "seg" in
  let Hs := fresh "Hsound" in let Hnc := fresh "Hnocall" in
  let Hq := fresh "Hquery" in let Hr := fresh "Hres" in
  intros r c seg (Hs & Hnc & Hq & Hr);
  simpl (clock _) in Hs, Hr; simpl (cache _) in Hs, Hr;
  try (specialize (Hs ltac:(assumption)));
  destruct r as [?|?];
  [ let Hfa := fresh "Hfresh" in let Hnf := fresh "Hnofail" in
    destruct Hr as [Hfa Hnf]; try (specialize (Hfa ltac:(assumption)))
  | let f := fresh "f" in let Hl := fresh "Hlast" in
    destruct Hr as (f & -> & Hl) ].

(** One step of the script. *)
Ltac wp_step :=
  cbv beta iota zeta;
  lazymatch goal with
  | |- wp (_ ≫= _) _ _ => apply wp_bind
  | |- wp (_ <$> _) _ _ => apply wp_fmap
  | |- wp (mret _) _ _ => apply wp_ret
  | |- wp skip _ _ => apply wp_skip
  | |- wp (show _) _ _ => apply wp_show
  | |- wp new_page _ _ => apply wp_new_page
  | |- wp (assert_env _ _) _ _ =>
      apply wp_assert_env;
      change (getenv ?v (clear_page ?w)) with (getenv v w);
      let v := fresh "v" in
      destruct (getenv _ _) as [v|] eqn:?; [destruct (String.eqb v "") eqn:?|]
  | |- wp (name _ _) _ _ => apply wp_name
  | |- wp (and_ _ _) _ _ => apply wp_and
  | |- wp (column ?df ?col) _ _ =>
      apply wp_column; destruct (column_values df col) as [?|] eqn:?
  | |- wp (selectbox _ _ _) _ _ => apply wp_selectbox; [intros ? ?|]
  | |- wp (checkbox ?ss ?label) _ _ =>
      apply wp_checkbox;
      destruct (default false (checkboxes ss !! label)) eqn:?
  | |- wp get_catalogs _ _ => wp_call_as ListCatalogs
  | |- wp (get_schemas ?c) _ _ => wp_call_as (ListSchemas c)
  | |- wp (get_tables ?c ?s) _ _ => wp_call_as (ListTables c s)
  | |- wp (get_table_data ?c ?s ?t ?n) _ _ => wp_call_as (PreviewTable c s t n)
  | |- wp (if py_truthy ?v then _ else _) _ _ => destruct (py_truthy v) eqn:?
  | |- after _ _ _ _ => unfold after at 1
  | |- if py_truthy ?v then _ else _ => destruct (py_truthy v) eqn:?
  end.





Section passes.
Context `{Warehouse}.

(** The events of a pass. *)
Lemma app_trace ss w :
  ∃ seg, trace (app ss w).2 = trace w ++ seg ∧
    (∀ args, EvCall "get_table_data" args ∈ seg → ∃ c s t, args = [c; s; t]) ∧
    (∀ q, EvQuery q ∈ seg → ∃ a, q = template a ∧ limit_of a = None) ∧
    match (app ss w).1 with
    | Raise (WarehouseError f) => failure_last seg f
    | _ => ∀ f, EvFailed f ∉ seg
    end ∧
    match getenv "DATABRICKS_WAREHOUSE_ID" w with
    | Some v =>
        if String.eqb v ""
        then (app ss w).1 = Raise (AssertionError missing_warehouse_id) ∧
             seg = []
        else (∀ m, (app ss w).1 ≠ Raise (AssertionError m)) ∧
             ∃ seg', seg = EvCall "get_catalogs" [] :: seg'
    | None =>
        (app ss w).1 = Raise (AssertionError missing_warehouse_id) ∧ seg = []
    end.
Proof.
  change (wp (app ss) (λ r w', ∃ seg, trace w' = trace w ++ seg ∧
    (∀ args, EvCall "get_table_data" args ∈ seg → ∃ c s t, args = [c; s; t]) ∧
    (∀ q, EvQuery q ∈ seg → ∃ a, q = template a ∧ limit_of a = None) ∧
    match r with
    | Raise (WarehouseError f) => failure_last seg f
    | _ => ∀ f, EvFailed f ∉ seg
    end ∧
    match getenv "DATABRICKS_WAREHOUSE_ID" w with
    | Some v =>
        if String.eqb v ""
        then r = Raise (AssertionError missing_warehouse_id) ∧ seg = []
        else (∀ m, r ≠ Raise (AssertionError m)) ∧
             ∃ seg', seg = EvCall "get_catalogs" [] :: seg'
    | None => r = Raise (AssertionError missing_warehouse_id) ∧ seg = []
    end) w).
  unfold app. repeat wp_step.
  all: simpl; rewrite <- ?(assoc_L (++)); simpl.
  all: eexists;
    split; [first [reflexivity | symmetry; apply (right_id_L [] (++))]|].
  all: split;
    [intros args Hin; in_cases; try discriminate; try absurd_event;
     simplify_eq; eauto|].
  all: split;
    [intros q Hin; in_cases; try discriminate;
     try match goal with
         | Hq : ∀ q, EvQuery q ∈ ?s → q = _, Hi : EvQuery _ ∈ ?s |- _ =>
             rewrite (Hq _ Hi); by eexists
         end|].
  all: split;
    [lazymatch goal with
     | |- failure_last _ _ => last_failure
     | |- _ => intros ? Hin; in_cases; first [discriminate|absurd_event]
     end|].
  all: first [ done | split; [done|by eexists] ].
Qed.


(** A pass keeps the clock and the invariant of the cache. *)
Lemma app_sound ss w :
  sound (clock w) (cache w) →
  clock (app ss w).2 = clock w ∧
  sound (clock w) (cache (app ss w).2).
Proof.
  intros Hsound0.
  change (wp (app ss)
            (λ _ w', clock w' = clock w ∧ sound (clock w) (cache w')) w).
  unfold app. repeat wp_step.
  all: by split.
Qed.

Lemma reachable_sound w : reachable w → sound (clock w) (cache w).
Proof.
  induction 1 as [env now|d w Hd _ IH|a w _ IH|ss w _ IH].
  - apply sound_empty.
  - by apply sound_later.
  - by apply sound_call.
  - destruct (app_sound ss w IH) as [-> Hs]. done.
Qed.

Lemma during_app ss w seg :
  trace (app ss w).2 = trace w ++ seg → during (app ss) w = seg.
Proof. intros Htr. unfold during. by rewrite Htr, drop_app_length. Qed.

End passes.

Section pass_claims.
Context `{Warehouse}.

(** C6, amended. The start-up check treats the empty string like an unset
    variable: when [DATABRICKS_WAREHOUSE_ID] is unset or empty, the run
    stops at the assertion with its message before anything is sent to
    the warehouse; when it is set to a non-empty value, the run gets past
    the assertion and calls its first accessor. *)
Theorem startup_check ss w :
  match getenv "DATABRICKS_WAREHOUSE_ID" w with
  | Some v => if String.eqb v "" then refused ss w else proceeds ss w
  | None => refused ss w
  end.
Proof.
  destruct (app_trace ss w) as (seg & Htr & _ & _ & _ & Henv).
  apply during_app in Htr. unfold refused, proceeds. rewrite Htr.
  destruct (getenv _ w) as [v|]; [|done]. by destruct (String.eqb v "").
Qed.

(** C8. An error of the warehouse client travels up unchanged. The
    executor raises exactly when the exchange fails, with that failure.
    An accessor raises exactly when the cache has no answer and its call of
    the executor raises, with the same exception. A pass ends with the
    error of the warehouse exactly when one occurred in it; then it
    occurred once and only the releases of the connection and cursor
    follow it: nothing is caught, retried or run afterwards. *)
Theorem failures_propagate :
  (∀ q w e, (sql_query q w).1 = Raise e ↔
     ∃ f, respond (clock w) q = Fails f ∧ e = WarehouseError f) ∧
  (∀ a w e, (call a w).1 = Raise e ↔
     cache_lookup (key a) w = None ∧
     (sql_query (template a) (emit (EvCall (key a).1 (key a).2) w)).1
       = Raise e) ∧
  (∀ ss w f,
     (EvFailed f ∈ during (app ss) w ↔
      (app ss w).1 = Raise (WarehouseError f)) ∧
     ((app ss w).1 = Raise (WarehouseError f) →
      failure_last (during (app ss) w) f)).
Proof.
  split; [|split].
  - intros q w e. rewrite sql_query_run. simpl.
    destruct (respond (clock w) q) as [f|df]; simpl.
    + split; [intros [= <-]; by exists f|]. by intros (f' & [= <-] & ->).
    + split; [done|]. by intros (f' & ? & _).
  - intros a w e. rewrite call_run, sql_query_run. simpl.
    destruct (cache_lookup (key a) w) as [df|]; simpl.
    + split; [done|]. by intros [? _].
    + destruct (respond (clock w) (template a)); simpl; intuition congruence.
  - intros ss w f.
    destruct (app_trace ss w) as (seg & Htr & _ & _ & Hfail & _).
    apply during_app in Htr. rewrite Htr.
    destruct (app ss w).1 as [[]|[| | | |f']]; simpl in *;
      try (split; [split; [intros Hin; by destruct (Hfail _ Hin)|done]|done]).
    split; [split|].
    + intros Hin. by rewrite (failure_last_only _ _ _ Hfail Hin).
    + intros [= ->]. destruct Hfail as (pre & post & -> & _). mem.
    + by intros [= ->].
Qed.

(** C10. The script never passes a limit: every call of [get_table_data]
    in a pass has the three names as its only arguments, every statement
    of a pass is the template of a call without limit, and the template of
    such a preview ends in [LIMIT 10]. *)
Theorem preview_uses_default_limit ss w :
  (∀ args, EvCall "get_table_data" args ∈ during (app ss) w →
     ∃ c s t, args = [c; s; t]) ∧
  (∀ q, EvQuery q ∈ during (app ss) w →
     ∃ a, q = template a ∧ limit_of a = None) ∧
  (∀ c s t, template (PreviewTable c s t None) =
     "SELECT * FROM " +:+ py_str c +:+ "." +:+ py_str s +:+ "."
     +:+ py_str t +:+ " LIMIT 10").
Proof.
  destruct (app_trace ss w) as (seg & Htr & Hcalls & Hqueries & _).
  apply during_app in Htr. rewrite Htr. done.
Qed.

(** Without the two metadata boxes ticked, no pass reads a name that it
    has not bound. *)
Lemma cascade_binds_what_it_reads ss w :
  default false (checkboxes ss !! "Show Schemas Metadata") = false →
  default false (checkboxes ss !! "Show Tables Metadata") = false →
  ∀ n, (app ss w).1 ≠ Raise (NameError n).
Proof.
  intros Hs Ht.
  change (wp (app ss) (λ r _, ∀ n, r ≠ Raise (NameError n)) w).
  unfold app. repeat wp_step.
  all: try done.
  all: congruence.
Qed.

End pass_claims.

(** ** The script on the small warehouse *)

(** A first pass with nothing chosen shows the first catalog, its first
    schema, its first table and ten rows at most of that table. *)
Example first_pass_page :
  page (app (H:=demo) no_choice demo_world).2 =
  [ElSelectbox "Select a Catalog" demo_catalogs (PyStr "main");
   ElSelectbox "Select a Schema" demo_schemas (PyStr "default");
   ElSelectbox "Select a Table" [PyStr "t1"] (PyStr "t1");
   ElDivider;
   ElSubheader "Data Preview: `main.default.t1`";
   ElDataframe demo_t1;
   ElCheckbox "Show Schemas Metadata" false;
   ElCheckbox "Show Tables Metadata" false;
   ElDivider].
Proof. vm_compute. reflexivity. Qed.

(** Schema [sales] was chosen under [main]; after the catalog is changed
    to [empty] the schema drop-down is the (empty) one of [empty], and
    neither [sales] nor a table of [main] is on the page. *)
Example catalog_change_page :
  page (app (H:=demo) then_chose_empty after_first_pass).2 =
  [ElSelectbox "Select a Catalog" demo_catalogs (PyStr "empty");
   ElSelectbox "Select a Schema" [] PyNone;
   ElDivider;
   ElCheckbox "Show Schemas Metadata" false;
   ElCheckbox "Show Tables Metadata" false;
   ElDivider].
Proof. vm_compute. reflexivity. Qed.

(** Names are put into the statement as they are. *)
Example statement_is_not_escaped :
  queries (during (get_schemas (H:=demo) (PyStr "main; DROP TABLE t"))
             demo_world)
  = ["SHOW SCHEMAS IN main; DROP TABLE t"].
Proof. vm_compute. reflexivity. Qed.

(** C2. A pass over a catalog without schemas, with the box of the tables
    metadata ticked: the accessor returned the empty list and the empty
    schema drop-down was rendered, and then the pass raises [NameError]
    on [tables], which only Step 3 binds. *)
Theorem empty_schema_list_breaks_tables_metadata :
  (get_schemas (H:=demo) (PyStr "empty") demo_world).1
    = Ok (strings_frame "databaseName" []) ∧
  shows (page (app (H:=demo) empty_with_tables_metadata demo_world).2)
    1 "Select a Schema" [] PyNone ∧
  (app (H:=demo) empty_with_tables_metadata demo_world).1
    = Raise (NameError "tables").
Proof. vm_compute. done. Qed.

(** The variable is set, to the empty string, and the run is refused. *)
Lemma blank_warehouse_id_is_refused :
  getenv "DATABRICKS_WAREHOUSE_ID" blank_id_world = Some "" ∧
  (app (H:=demo) no_choice blank_id_world).1
    = Raise (AssertionError missing_warehouse_id).
Proof. vm_compute. done. Qed.

Lemma repeated_call_within_window_witness :
  (call (H:=demo) (ListSchemas (PyStr "main")) (listed_main 30)).1
    = Ok (strings_frame "databaseName" ["default"; "sales"]) ∧
  during (call (H:=demo) (ListSchemas (PyStr "main"))) (listed_main 30)
    = [EvCall "get_schemas" [PyStr "main"]] ∧
  queries (drop (length (trace demo_world))
             (trace (call (H:=demo) (ListSchemas (PyStr "main"))
                       (listed_main 30)).2))
    = ["SHOW SCHEMAS IN main"].
Proof.
  apply (repeated_call_within_window (H:=demo) (ListSchemas (PyStr "main"))
           demo_world (strings_frame "databaseName" ["default"; "sales"])
           (call (H:=demo) (ListSchemas (PyStr "main")) demo_world).2 30).
  - reflexivity.
  - vm_compute. reflexivity.
  - lia.
Defined.

Lemma expired_entry_is_recomputed_witness :
  queries (during (call (H:=demo) (ListSchemas (PyStr "main")))
             (listed_main 61))
    = ["SHOW SCHEMAS IN main"] ∧
  match respond (Warehouse:=demo) (clock (listed_main 61))
          "SHOW SCHEMAS IN main" with
  | Rows df =>
      (call (H:=demo) (ListSchemas (PyStr "main")) (listed_main 61)).1
        = Ok df ∧
      cache (call (H:=demo) (ListSchemas (PyStr "main")) (listed_main 61)).2
        !! key (ListSchemas (PyStr "main"))
        = Some (df, clock (listed_main 61) + 60)%Z
  | Fails f =>
      (call (H:=demo) (ListSchemas (PyStr "main")) (listed_main 61)).1
        = Raise (WarehouseError f)
  end.
Proof.
  apply (expired_entry_is_recomputed (H:=demo) (ListSchemas (PyStr "main"))
           (listed_main 61)
           (strings_frame "databaseName" ["default"; "sales"]) 0).
  - vm_compute. reflexivity.
  - vm_compute. reflexivity.
Defined.

(** * Further properties of a pass *)

(** ** The warehouse side of one call *)

Lemma held_after_app h h' l1 l2 :
  held_after h l1 = Some h' → held_after h (l1 ++ l2) = held_after h' l2.
Proof.
  revert h. induction l1 as [|ev l1 IH]; intros h; simpl.
  - by intros [= ->].
  - destruct (held_step h ev) as [h1|]; [apply IH|done].
Qed.

Lemma sql_events_discipline path q o :
  call_discipline path q (sql_events path q o).
Proof.
  split; [by destruct o as [[]|]|]. split.
  - intros p. destruct o as [[]|]; unfold sql_events; simpl; intros ?; mem.
  - right. apply queries_sql_events.
Qed.

Lemma calls_app l1 l2 : calls (l1 ++ l2) = calls l1 ++ calls l2.
Proof. apply omap_app. Qed.

Lemma calls_none seg : (∀ f a, EvCall f a ∉ seg) → calls seg = [].
Proof.
  induction seg as [|ev seg IH]; [done|]. intros Hno.
  assert (calls seg = []) as Hs.
  { apply IH. intros f a Hin. apply (Hno f a), elem_of_cons. by right. }
  destruct ev; simpl; try done. destruct (Hno fname args).
  apply elem_of_cons. by left.
Qed.

Lemma column_values_None df col :
  column_values df col = None → col ∉ df_columns df.
Proof.
  unfold column_values.
  destruct (list_find _ _) as [[i c]|] eqn:Hf; [done|]. intros _ Hin.
  apply list_find_None in Hf. rewrite Forall_forall in Hf. by apply (Hf col).
Qed.

Lemma selectbox_run ss label opts w :
  selectbox ss label opts w =
  match chosen ss label opts with
  | Some v => (Ok v, draw (ElSelectbox label opts v) w)
  | None => (Raise IndexError, w)
  end.
Proof.
  unfold selectbox, chosen. destruct opts as [|o opts]; [done|].
  by destruct (_ !! _).
Qed.

Lemma settled_empty d now : settled d now ∅.
Proof. intros k df e Hk. by rewrite lookup_empty in Hk. Qed.

Section more_rules.
Context `{Warehouse}.

Lemma call_discipline_run a w :
  ∃ r c' seg,
    call a w = (r, set_cache c' (emits (EvCall (key a).1 (key a).2 :: seg) w)) ∧
    call_facts a (clock w) (cache w) r c' seg ∧
    call_discipline (warehouse_path (environ w)) (template a) seg.
Proof.
  destruct (call_facts_run a w) as (r & c' & seg & Hrun & Hfacts).
  exists r, c', seg. split; [done|]. split; [done|].
  rewrite call_run in Hrun.
  apply (f_equal (λ x, trace x.2)) in Hrun.
  destruct (cache_lookup (key a) w); simpl in Hrun.
  - apply app_inv_head in Hrun. injection Hrun as <-.
    split; [done|]. split; [intros p Hp; mem|by left].
  - assert (seg = sql_events (http_path w) (template a)
                    (respond (clock w) (template a))) as ->.
    { destruct (respond (clock w) (template a)); simpl in Hrun;
        apply app_inv_head in Hrun; by injection Hrun as <-. }
    apply sql_events_discipline.
Qed.

Lemma wp_call_discipline a Q w :
  (∀ r c' seg, call_facts a (clock w) (cache w) r c' seg →
     call_discipline (warehouse_path (environ w)) (template a) seg →
     Q r (set_cache c' (emits (EvCall (key a).1 (key a).2 :: seg) w))) →
  wp (call a) Q w.
Proof.
  intros HQ.
  destruct (call_discipline_run a w) as (r & c' & seg & Hrun & Hf & Hd).
  unfold wp. rewrite Hrun. by apply HQ.
Qed.

Lemma wp_selectbox_chosen ss label opts Q w :
  match chosen ss label opts with
  | Some v => Q (Ok v) (draw (ElSelectbox label opts v) w)
  | None => Q (Raise IndexError) w
  end →
  wp (selectbox ss label opts) Q w.
Proof.
  unfold wp. rewrite selectbox_run. by destruct (chosen ss label opts).
Qed.

Lemma call_keeps_run a d w :
  (0 ≤ d < ttl)%Z →
  ∃ r c' seg,
    call a w = (r, set_cache c' (emits (EvCall (key a).1 (key a).2 :: seg) w)) ∧
    call_keeps a d (clock w) (cache w) r c'.
Proof.
  intros Hd. rewrite call_run.
  destruct (cache_lookup (key a) w) as [df|] eqn:Hk.
  - exists (Ok df), (cache w), []. split; [by destruct w|].
    split; [done|]. split; [done|]. intros Hs df' [= <-].
    apply cache_lookup_Some in Hk as (e & Hk & Hlt).
    exists e. split; [done|]. destruct (Hs _ _ _ Hk); lia.
  - simpl. destruct (respond (clock w) (template a)) as [f|df] eqn:Ho.
    + eexists (Raise _), (cache w), _. split; [by destruct w|].
      split; [done|]. split; [done|]. by intros _ df [=].
    + eexists (Ok df), _, _. split; [done|]. split; [|split].
      * intros Hs k df' e Hl.
        destruct (decide (k = key a)) as [->|Hne].
        -- rewrite lookup_insert_eq in Hl. injection Hl as <- <-. lia.
        -- rewrite lookup_insert_ne in Hl by done. by eapply Hs.
      * intros k df' (e & Hl & Hlt).
        destruct (decide (k = key a)) as [->|Hne].
        -- rewrite (cache_lookup_fresh _ _ _ _ Hl) in Hk by lia. done.
        -- exists e. by rewrite lookup_insert_ne.
      * intros _ df' [= <-]. exists (clock w + ttl)%Z.
        split; [apply lookup_insert_eq|lia].
Qed.

Lemma wp_call_keeps a d Q w :
  (0 ≤ d < ttl)%Z →
  (∀ r c' seg, call_keeps a d (clock w) (cache w) r c' →
     Q r (set_cache c' (emits (EvCall (key a).1 (key a).2 :: seg) w))) →
  wp (call a) Q w.
Proof.
  intros Hd HQ.
  destruct (call_keeps_run a d w Hd) as (r & c' & seg & Hrun & Hk).
  unfold wp. rewrite Hrun. by apply HQ.
Qed.

Lemma wp_call_lasting a df d now Q w :
  lasting d now (cache w) (key a) df → clock w = (now + d)%Z →
  Q (Ok df) (emit (EvCall (key a).1 (key a).2) w) →
  wp (call a) Q w.
Proof.
  intros (e & Hk & Hlt) Hc HQ. unfold wp.
  rewrite (call_hit a w df); [done|].
  apply cache_lookup_fresh with e; [done|lia].
Qed.

End more_rules.

(** One accessor call, with what it does to the warehouse. *)
Ltac wpx_call_as a :=
  apply (wp_call_discipline a);
  let r := fresh "r" in let c := fresh "c" in let seg := fresh "seg" in
  let Hs := fresh "Hsound" in let Hnc := fresh "Hnocall" in
  let Hq := fresh "Hquery" in let Hr := fresh "Hres" in
  let Hh := fresh "Hheld" in let Hc := fresh "Hconn" in
  let Hn := fresh "Hsent" in
  intros r c seg (Hs & Hnc & Hq & Hr) (Hh & Hc & Hn);
  simpl (clock _) in Hs, Hr; simpl (cache _) in Hs, Hr;
  simpl (environ _) in Hc;
  try (specialize (Hs ltac:(assumption)));
  destruct r as [?|?];
  [ let Hfa := fresh "Hfresh" in let Hnf := fresh "Hnofail" in
    destruct Hr as [Hfa Hnf]; try (specialize (Hfa ltac:(assumption)))
  | let f := fresh "f" in let Hl := fresh "Hlast" in
    destruct Hr as (f & -> & Hl) ].

Ltac wpx_step :=
  cbv beta iota zeta;
  lazymatch goal with
  | |- wp get_catalogs _ _ => wpx_call_as ListCatalogs
  | |- wp (get_schemas ?c) _ _ => wpx_call_as (ListSchemas c)
  | |- wp (get_tables ?c ?s) _ _ => wpx_call_as (ListTables c s)
  | |- wp (get_table_data ?c ?s ?t ?n) _ _ => wpx_call_as (PreviewTable c s t n)
  | |- _ => wp_step
  end.

Ltac held_chain :=
  repeat first
    [ assumption | reflexivity
    | progress cbn [held_after held_step]
    | erewrite held_after_app by eassumption ].

Ltac sent_cases :=
  repeat match goal with
  | H : queries ?s = [] ∨ queries ?s = _ |- _ => destruct H as [H|H]
  end.

Ltac sublist_search :=
  repeat first [ apply sublist_nil | apply sublist_skip | apply sublist_cons ].

(** A first pass, remembering which entries outlive the next [d] seconds. *)
Ltac carry_lasting Hk :=
  repeat match goal with
  | Hl : lasting _ _ ?c _ _ |- _ =>
      lazymatch type of Hk with
      | ∀ k df, lasting _ _ c k df → _ => apply Hk in Hl
      end
  end.

Ltac run1_call_as a d :=
  apply (wp_call_keeps a d); [assumption|];
  let r := fresh "r" in let c := fresh "c" in let seg := fresh "seg" in
  let Hs := fresh "Hsettled" in let Hk := fresh "Hkeep" in
  let Hn := fresh "Hnew" in
  intros r c seg (Hs & Hk & Hn);
  simpl (clock _) in Hs, Hk, Hn; simpl (cache _) in Hs, Hk, Hn;
  specialize (Hn ltac:(assumption)); specialize (Hs ltac:(assumption));
  carry_lasting Hk; clear Hk;
  destruct r as [?|?]; [specialize (Hn _ eq_refl)|clear Hn].

Ltac run1_step d :=
  cbv beta iota zeta;
  lazymatch goal with
  | |- wp get_catalogs _ _ => run1_call_as ListCatalogs d
  | |- wp (get_schemas ?c) _ _ => run1_call_as (ListSchemas c) d
  | |- wp (get_tables ?c ?s) _ _ => run1_call_as (ListTables c s) d
  | |- wp (get_table_data ?c ?s ?t ?n) _ _ =>
      run1_call_as (PreviewTable c s t n) d
  | |- wp (selectbox ?ss ?label ?opts) _ _ =>
      apply wp_selectbox_chosen;
      destruct (chosen ss label opts) as [?|] eqn:?
  | |- _ => wp_step
  end.

(** A second pass, along the path of the first one. *)
Ltac recall :=
  repeat match goal with
  | Ht : py_truthy ?v = _ |- context [py_truthy ?v] => rewrite Ht
  | Ht : column_values ?df ?col = _ |- context [column_values ?df ?col] =>
      rewrite Ht
  | Ht : chosen ?ss ?l ?o = _ |- context [chosen ?ss ?l ?o] => rewrite Ht
  | Ht : default false (checkboxes ?ss !! ?l) = _
    |- context [default false (checkboxes ?ss !! ?l)] => rewrite Ht
  | Ht : environ ?w !! ?x = _ |- context [environ ?w !! ?x] => rewrite Ht
  | Ht : String.eqb ?v ?e = _ |- context [String.eqb ?v ?e] => rewrite Ht
  end.

Ltac run2_call_as a :=
  eapply (wp_call_lasting a); [simpl (cache _); eassumption|reflexivity|].

Ltac run2_step :=
  cbv beta iota zeta; recall; cbv beta iota zeta;
  lazymatch goal with
  | |- wp (_ ≫= _) _ _ => apply wp_bind
  | |- wp (_ <$> _) _ _ => apply wp_fmap
  | |- wp (mret _) _ _ => apply wp_ret
  | |- wp skip _ _ => apply wp_skip
  | |- wp (show _) _ _ => apply wp_show
  | |- wp new_page _ _ => apply wp_new_page
  | |- wp (assert_env _ _) _ _ =>
      apply wp_assert_env; unfold getenv; simpl (environ _)
  | |- wp (name _ _) _ _ => apply wp_name
  | |- wp (and_ _ _) _ _ => apply wp_and
  | |- wp (column _ _) _ _ => apply wp_column
  | |- wp (selectbox _ _ _) _ _ => apply wp_selectbox_chosen
  | |- wp (checkbox _ _) _ _ => apply wp_checkbox
  | |- wp get_catalogs _ _ => run2_call_as ListCatalogs
  | |- wp (get_schemas ?c) _ _ => run2_call_as (ListSchemas c)
  | |- wp (get_tables ?c ?s) _ _ => run2_call_as (ListTables c s)
  | |- wp (get_table_data ?c ?s ?t ?n) _ _ => run2_call_as (PreviewTable c s t n)
  | |- after _ _ _ _ => unfold after at 1
  end.

Section more_passes.
Context `{Warehouse}.

(** The warehouse side of a pass. *)
Lemma app_discipline ss w :
  ∃ seg, trace (app ss w).2 = trace w ++ seg ∧
    held_after Nothing seg = Some Nothing ∧
    (∀ p, EvConnect p ∈ seg → p = warehouse_path (environ w)) ∧
    calls seg `prefix_of`
      ["get_catalogs"; "get_schemas"; "get_tables"; "get_table_data"] ∧
    queries seg `sublist_of`
      (template <$> cascade (selected (page (app ss w).2))) ∧
    (∀ fname args, EvCall fname args ∈ seg →
       args `prefix_of` selected (page (app ss w).2) ∧
       Forall (λ v, py_truthy v = true) args).
Proof.
  change (wp (app ss) (λ _ w', ∃ seg, trace w' = trace w ++ seg ∧
    held_after Nothing seg = Some Nothing ∧
    (∀ p, EvConnect p ∈ seg → p = warehouse_path (environ w)) ∧
    calls seg `prefix_of`
      ["get_catalogs"; "get_schemas"; "get_tables"; "get_table_data"] ∧
    queries seg `sublist_of` (template <$> cascade (selected (page w'))) ∧
    (∀ fname args, EvCall fname args ∈ seg →
       args `prefix_of` selected (page w') ∧
       Forall (λ v, py_truthy v = true) args)) w).
  unfold app. repeat wpx_step.
  all: simpl trace; simpl page; rewrite <- ?(assoc_L (++)); simpl.
  all: eexists;
    split; [first [reflexivity | symmetry; apply (right_id_L [] (++))]|].
  all: split; [held_chain|].
  all: split; [intros p Hin; in_cases; try discriminate; eauto|].
  all: split;
    [repeat (rewrite ?calls_app, ?calls_none by assumption; simpl);
     by eexists|].
  all: split;
    [sent_cases;
     repeat (rewrite ?queries_app; simpl;
             repeat match goal with
                    | Hq : queries _ = _ |- _ => rewrite Hq; clear Hq
                    end; simpl);
     sublist_search|].
  all: intros fname args Hin; in_cases; try discriminate; try absurd_event;
    simplify_eq; (split; [by eexists|repeat constructor; assumption]).
Qed.

(** X1. Whatever happens in a pass, when it ends the client holds neither
    a connection nor a cursor: every acquisition of every call in the pass
    was released, in order, also when the pass ends with an exception. *)
Theorem pass_releases_everything ss w :
  held_after Nothing (during (app ss) w) = Some Nothing.
Proof.
  destruct (app_discipline ss w) as (seg & Htr & Hheld & _).
  by rewrite (during_app _ _ _ Htr).
Qed.

(** X2. Every connection that a pass opens goes to the warehouse named by
    [DATABRICKS_WAREHOUSE_ID], which is then set and not empty: thanks to
    the assertion at the top of the script no pass connects to the path
    ending in [None]. *)
Theorem pass_connects_to_configured_warehouse ss w p :
  EvConnect p ∈ during (app ss) w →
  ∃ v, getenv "DATABRICKS_WAREHOUSE_ID" w = Some v ∧ v ≠ "" ∧
       p = "/sql/1.0/warehouses/" +:+ v.
Proof.
  destruct (app_discipline ss w) as (seg & Htr & _ & Hconn & _).
  destruct (app_trace ss w) as (seg' & Htr' & _ & _ & _ & Henv).
  rewrite Htr in Htr'. apply app_inv_head in Htr' as <-.
  rewrite (during_app _ _ _ Htr). intros Hin.
  rewrite (Hconn _ Hin). unfold warehouse_path, getenv in *.
  destruct (environ w !! _) as [v|].
  - destruct (String.eqb v "") eqn:Hv.
    + destruct Henv as [_ ->]. by apply elem_of_nil in Hin.
    + exists v. split; [done|]. split; [|done]. by apply String.eqb_neq.
  - destruct Henv as [_ ->]. by apply elem_of_nil in Hin.
Qed.

(** X3. A pass calls the accessors in the order of the cascade and each
    one at most once: the names of its calls are a beginning of
    [get_catalogs], [get_schemas], [get_tables], [get_table_data], and the
    statements it hands to the executor are, in order and without
    repetition, among the four statements for the selections that the page
    shows; so a pass costs four statements at most. *)
Theorem pass_follows_cascade ss w :
  calls (during (app ss) w) `prefix_of`
    ["get_catalogs"; "get_schemas"; "get_tables"; "get_table_data"] ∧
  queries (during (app ss) w) `sublist_of`
    (template <$> cascade (selected (page (app ss w).2))).
Proof.
  destruct (app_discipline ss w) as (seg & Htr & _ & _ & Hc & Hq & _).
  by rewrite (during_app _ _ _ Htr).
Qed.

(** X4. The arguments of every accessor call of a pass are the values that
    the page shows as selected, from the catalog downwards, and each of
    them is true as a condition: no statement is built from [None] or
    from an empty name. *)
Theorem calls_use_shown_selections ss w fname args :
  EvCall fname args ∈ during (app ss) w →
  args `prefix_of` selected (page (app ss w).2) ∧
  Forall (λ v, py_truthy v = true) args.
Proof.
  destruct (app_discipline ss w) as (seg & Htr & _ & _ & _ & _ & Hargs).
  rewrite (during_app _ _ _ Htr). apply Hargs.
Qed.

(** X5. A pass can only fail on an unbound name in the metadata sections,
    and only because the selection above is empty: [schemas] with the
    schemas box ticked and [selected_schema] with the tables box ticked,
    both when no catalog is selected, and [tables] with the tables box
    ticked when a catalog but no schema is selected. *)
Theorem unbound_name_only_in_metadata ss w n :
  (app ss w).1 = Raise (NameError n) →
  (n = "schemas" ∧ ticked ss "Show Schemas Metadata" ∧
     ∃ c, selected (page (app ss w).2) = [c] ∧ py_truthy c = false) ∨
  (n = "selected_schema" ∧ ticked ss "Show Tables Metadata" ∧
     ∃ c, selected (page (app ss w).2) = [c] ∧ py_truthy c = false) ∨
  (n = "tables" ∧ ticked ss "Show Tables Metadata" ∧
     ∃ c s, selected (page (app ss w).2) = [c; s] ∧ py_truthy c = true ∧
            py_truthy s = false).
Proof.
  revert n.
  change (wp (app ss) (λ r w', ∀ n, r = Raise (NameError n) →
  (n = "schemas" ∧ ticked ss "Show Schemas Metadata" ∧
     ∃ c, selected (page w') = [c] ∧ py_truthy c = false) ∨
  (n = "selected_schema" ∧ ticked ss "Show Tables Metadata" ∧
     ∃ c, selected (page w') = [c] ∧ py_truthy c = false) ∨
  (n = "tables" ∧ ticked ss "Show Tables Metadata" ∧
     ∃ c s, selected (page w') = [c; s] ∧ py_truthy c = true ∧
            py_truthy s = false)) w).
  unfold app. repeat wp_step.
  all: simpl page; intros n [= <-].
  all: try congruence.
  all: unfold ticked; simpl; eauto 10.
Qed.

(** X6. A pass with a metadata box ticked completes only if the selection
    it displays exists: with the schemas box ticked a catalog is selected
    and the schema drop-down was rendered, with the tables box ticked a
    catalog and a schema are selected and the table drop-down was
    rendered. *)
Theorem metadata_needs_selection ss w :
  (app ss w).1 = Ok () →
  (ticked ss "Show Schemas Metadata" →
     ∃ c sel, selected (page (app ss w).2) = c :: sel ∧ sel ≠ [] ∧
              py_truthy c = true) ∧
  (ticked ss "Show Tables Metadata" →
     ∃ c s t, selected (page (app ss w).2) = [c; s; t] ∧
              py_truthy c = true ∧ py_truthy s = true).
Proof.
  change (wp (app ss) (λ r w', r = Ok () →
  (ticked ss "Show Schemas Metadata" →
     ∃ c sel, selected (page w') = c :: sel ∧ sel ≠ [] ∧
              py_truthy c = true) ∧
  (ticked ss "Show Tables Metadata" →
     ∃ c s t, selected (page w') = [c; s; t] ∧
              py_truthy c = true ∧ py_truthy s = true)) w).
  unfold app. repeat wp_step.
  all: simpl page; intros [=].
  all: try congruence.
  all: unfold ticked; simpl; split; intros ?; try congruence; eauto 10.
Qed.

(** X7. A pass fails on a missing column only when an answer of the
    warehouse lacks the column that the script reads from it: [catalog]
    from the list of catalogs, [databaseName] from the list of schemas,
    [tableName] from the list of tables. *)
Theorem key_error_means_missing_column ss w k :
  reachable w →
  (app ss w).1 = Raise (KeyError k) →
  ∃ a df, expected_column a = Some k ∧
    fresh_answer (clock w) (template a) df ∧ k ∉ df_columns df.
Proof.
  intros Hsound0%reachable_sound. revert k.
  change (wp (app ss) (λ r w', ∀ k, r = Raise (KeyError k) →
    ∃ a df, expected_column a = Some k ∧
      fresh_answer (clock w) (template a) df ∧ k ∉ df_columns df) w).
  unfold app. repeat wp_step.
  all: intros k [= <-].
  all: try congruence.
  all: match goal with
       | Hc : column_values ?df ?col = None,
         Hf : fresh_answer _ (template ?a) ?df |- _ =>
           exists a, df; split; [done|]; split; [done|];
           by apply column_values_None
       end.
Qed.

(** X8. A pass that completed is free to repeat: run again with the same
    session less than 60 seconds later, while no entry of the cache
    expires in between, the script completes again, shows the same page
    and hands no statement to the executor. *)
Theorem rerun_is_served_from_cache ss w d :
  settled d (clock w) (cache w) → (0 ≤ d < 60)%Z →
  (app ss w).1 = Ok () →
  (app ss (tick d (app ss w).2)).1 = Ok () ∧
  page (app ss (tick d (app ss w).2)).2 = page (app ss w).2 ∧
  queries (during (app ss) (tick d (app ss w).2)) = [].
Proof.
  intros Hsettled0 Hd.
  pose (again := app ss).
  assert (wp (app ss) (λ r w1, r = Ok () →
            wp again (λ r2 w2, r2 = Ok () ∧ page w2 = page w1 ∧
                  ∃ seg, trace w2 = trace (tick d w1) ++ seg ∧
                         queries seg = [])
              (tick d w1)) w) as Hwp.
  { unfold app. repeat run1_step d.
    all: try congruence.
    all: intros _; subst again; unfold app.
    all: unfold getenv in *.
    all: repeat run2_step.
    all: split; [done|]; split; [done|].
    all: simpl trace; eexists;
      split; [rewrite <- ?(assoc_L (++)); reflexivity|done]. }
  intros Hok. destruct (Hwp Hok) as (Hok2 & Hpage & seg & Htr & Hq).
  subst again. split; [done|]. split; [done|].
  by rewrite (during_app _ _ _ Htr).
Qed.

End more_passes.

(** ** These properties on the small warehouse *)

Lemma pass_connects_to_configured_warehouse_witness :
  ∃ v, getenv "DATABRICKS_WAREHOUSE_ID" demo_world = Some v ∧ v ≠ "" ∧
       "/sql/1.0/warehouses/abc123" = "/sql/1.0/warehouses/" +:+ v.
Proof.
  apply (pass_connects_to_configured_warehouse (H:=demo) no_choice demo_world).
  apply (bool_decide_unpack _). vm_compute. exact I.
Defined.

Lemma calls_use_shown_selections_witness :
  [PyStr "main"; PyStr "default"]
    `prefix_of` selected (page (app (H:=demo) no_choice demo_world).2) ∧
  Forall (λ v, py_truthy v = true) [PyStr "main"; PyStr "default"].
Proof.
  apply (calls_use_shown_selections (H:=demo) no_choice demo_world
           "get_tables").
  apply (bool_decide_unpack _). vm_compute. exact I.
Defined.

Lemma unbound_name_only_in_metadata_witness :
  ("tables" = "schemas" ∧
     ticked empty_with_tables_metadata "Show Schemas Metadata" ∧
     ∃ c, selected (page (app (H:=demo) empty_with_tables_metadata
                            demo_world).2) = [c] ∧ py_truthy c = false) ∨
  ("tables" = "selected_schema" ∧
     ticked empty_with_tables_metadata "Show Tables Metadata" ∧
     ∃ c, selected (page (app (H:=demo) empty_with_tables_metadata
                            demo_world).2) = [c] ∧ py_truthy c = false) ∨
  ("tables" = "tables" ∧
     ticked empty_with_tables_metadata "Show Tables Metadata" ∧
     ∃ c s, selected (page (app (H:=demo) empty_with_tables_metadata
                              demo_world).2) = [c; s] ∧
            py_truthy c = true ∧ py_truthy s = false).
Proof.
  apply (unbound_name_only_in_metadata (H:=demo)).
  vm_compute. reflexivity.
Defined.

Lemma metadata_needs_selection_witness :
  (ticked all_metadata "Show Schemas Metadata" →
     ∃ c sel, selected (page (app (H:=demo) all_metadata demo_world).2)
                = c :: sel ∧ sel ≠ [] ∧ py_truthy c = true) ∧
  (ticked all_metadata "Show Tables Metadata" →
     ∃ c s t, selected (page (app (H:=demo) all_metadata demo_world).2)
                = [c; s; t] ∧ py_truthy c = true ∧ py_truthy s = true).
Proof.
  apply (metadata_needs_selection (H:=demo)).
  vm_compute. reflexivity.
Defined.

Lemma key_error_means_missing_column_witness :
  ∃ a df, expected_column a = Some "catalog" ∧
    fresh_answer (H:=headless) (clock demo_world) (template a) df ∧
    "catalog" ∉ df_columns df.
Proof.
  apply (key_error_means_missing_column (H:=headless) no_choice demo_world).
  - apply reach_boot.
  - vm_compute. reflexivity.
Defined.

Lemma rerun_is_served_from_cache_witness :
  (app (H:=demo) no_choice
     (tick 30 (app (H:=demo) no_choice demo_world).2)).1 = Ok () ∧
  page (app (H:=demo) no_choice
          (tick 30 (app (H:=demo) no_choice demo_world).2)).2
    = page (app (H:=demo) no_choice demo_world).2 ∧
  queries (during (app (H:=demo) no_choice)
             (tick 30 (app (H:=demo) no_choice demo_world).2)) = [].
Proof.
  apply (rerun_is_served_from_cache (H:=demo) no_choice demo_world 30).
  - apply settled_empty.
  - lia.
  - vm_compute. reflexivity.
Defined.

(** * A change of catalog, and previews beyond the limit *)


(** A drop-down for which the session stores nothing shows its first
    option. *)
Lemma chosen_unset ss label opts :
  selectboxes ss !! (label, py_str <$> opts) = None →
  chosen ss label opts = Some (default PyNone (head opts)).
Proof.
  intros Hno. unfold chosen. rewrite Hno. by destruct opts.
Qed.






Section catalog_change.
Context `{Warehouse}.




End catalog_change.


(** The page of the pass for [b]: lists, table and preview are those of
    [b] and of the schema shown. *)
Example catalog_change_under_twins :
  page (app (H:=twins)
          (pick "Select a Catalog" twin_catalogs 1 chose_sales_under_a)
          after_sales_under_a).2 =
  [ElSelectbox "Select a Catalog" twin_catalogs (PyStr "b");
   ElSelectbox "Select a Schema" twin_schemas (PyStr "sales");
   ElSelectbox "Select a Table" [PyStr "returns"] (PyStr "returns");
   ElDivider;
   ElSubheader "Data Preview: `b.sales.returns`";
   ElDataframe (strings_frame "amount" ["3"]);
   ElCheckbox "Show Schemas Metadata" false;
   ElCheckbox "Show Tables Metadata" false;
   ElDivider].
Proof. vm_compute. reflexivity. Qed.



